(** * tarantool.lts.space: the [Space] wrapper over a connection

    A shallow embedding of [src/tarantool/lts/space.py].  The class
    [Space] holds a reference to a connection object and the number of
    one space; each of its methods forwards one request to the
    connection.  The connection itself (schema lookup, request methods,
    the [return_tuple] attribute) is a collaborator that lives outside
    this module, so it is modelled as an interface ([Connection]) and
    every theorem holds for all of its implementations. *)

From Stdlib Require Import ZArith String List Lia.
From stdpp Require Import base option functions gmap strings list fin_maps.

Local Open Scope Z_scope.
Local Open Scope string_scope.
Local Open Scope list_scope.

(** ** Python values *)

(** The values that cross the interface of [Space]: records are tuples
    of scalars, keys are scalars or tuples, responses are lists of
    tuples, flags are [bool] or [None]. *)
#[warnings="-register-all"]
Inductive pyval : Type :=
| VNone
| VBool (b : bool)
| VInt (n : Z)
| VStr (s : string)
| VTuple (items : list pyval)
| VList (items : list pyval).

(** [x is None] *)
Definition is_None (v : pyval) : bool :=
  match v with
  | VNone => true
  | _ => false
  end.

(** Truth value testing, as done by [if] and by the conditional
    expression [a if c else b]. *)
Definition truthy (v : pyval) : bool :=
  match v with
  | VNone => false
  | VBool b => b
  | VInt n => negb (Z.eqb n 0)
  | VStr s => negb (String.eqb s "")
  | VTuple items | VList items =>
      match items with
      | [] => false
      | _ :: _ => true
      end
  end.

(** Exceptions: the [TypeError] the interpreter raises when a call does
    not match the signature of the callee, and whatever the connection
    raises, which [Space] never catches. *)
Inductive pyexc : Type :=
| TypeError (msg : string)
| ConnError (cls : string) (msg : string).

Inductive result (A : Type) : Type :=
| Ok (a : A)
| Raise (e : pyexc).
Arguments Ok {A} a.
Arguments Raise {A} e.

(** ** Constants imported from [tarantool.lts.const]

    The module that defines them is not part of this development; the
    three flags are parameters. *)
Class BoxConst : Type := {
  BOX_RETURN_TUPLE : Z;
  BOX_ADD : Z;
  BOX_REPLACE : Z
}.

(** The values these flags have in the Tarantool 1.5 binary protocol. *)
Definition box_const_1_5 : BoxConst :=
  {| BOX_RETURN_TUPLE := 1; BOX_ADD := 2; BOX_REPLACE := 4 |}.

(** ** The connection *)

(** What [Space] asks of its connection: the schema lookup and the five
    request methods, each with the arguments it is called with. *)
Inductive request : Type :=
| SchemaSpaceNo (space_name : pyval)
    (* connection.schema.space_no(space_name) *)
| Insert_ (space_no values : pyval) (flags : Z)
    (* connection._insert(space_no, values, flags) *)
| Delete (space_no key return_tuple : pyval)
    (* connection.delete(space_no, key, return_tuple) *)
| Update (space_no key op_list return_tuple : pyval)
    (* connection.update(space_no, key, op_list, return_tuple) *)
| Select (space_no values index offset limit : pyval)
    (* connection.select(space_no, values, index=, offset=, limit=) *)
| Call (func_name : pyval) (args : list pyval) (kwargs : gmap string pyval).
    (* connection.call(func_name, *args, **kwargs) *)

(** A connection object has a state of some type [C], an attribute
    [return_tuple] read from that state, and answers a request with a
    value or an exception, changing its state as it likes. *)
Class Connection (C : Type) : Type := {
  return_tuple : C -> pyval;
  serve : request -> C -> result pyval * C
}.

(** Connection objects are referred to by identity. *)
Abbreviation conn_ref := N.

(** What happens at the connection, in order: a read of its
    [return_tuple] attribute, or a request sent to it. *)
Inductive event : Type :=
| GetReturnTuple (c : conn_ref)
| Sent (c : conn_ref) (r : request).

(** ** The Space object *)

(** The two attributes [__init__] sets. *)
Record Space : Type := {
  connection : conn_ref;
  space_no : pyval
}.

(** The state a method runs in: the receiver [self], the connection
    objects (shared, reached through their references), and the trace of
    what was done to them so far. *)
Record world (C : Type) : Type := {
  self : Space;
  conns : conn_ref -> C;
  trace : list event
}.
Arguments self {C} w.
Arguments conns {C} w.
Arguments trace {C} w.

(** ** A state and exception monad *)

Definition M (C A : Type) : Type := world C -> result A * world C.

Definition ret {C A} (a : A) : M C A := fun w => (Ok a, w).

Definition raise {C A} (e : pyexc) : M C A := fun w => (Raise e, w).

Definition bind {C A B} (m : M C A) (k : A -> M C B) : M C B :=
  fun w =>
    match m w with
    | (Ok a, w') => k a w'
    | (Raise e, w') => (Raise e, w')
    end.

Declare Scope py_scope.
Delimit Scope py_scope with py.
Notation "x <- m ;; k" := (bind m (fun x => k))
  (at level 100, m at next level, right associativity) : py_scope.
Notation "m ;;; k" := (bind m (fun _ => k))
  (at level 100, right associativity) : py_scope.
Local Open Scope py_scope.

Definition log {C} (e : event) (w : world C) : world C :=
  {| self := self w; conns := conns w; trace := trace w ++ [e] |}.

Section WithConnection.
Context {C : Type} {conn : Connection C}.

(** [self.connection] and [self.space_no] *)
Definition self_connection : M C conn_ref :=
  fun w => (Ok (connection (self w)), w).

Definition self_space_no : M C pyval :=
  fun w => (Ok (space_no (self w)), w).

(** [self.connection = c] and [self.space_no = n] *)
Definition set_self_connection (c : conn_ref) : M C unit :=
  fun w =>
    (Ok tt, {| self := {| connection := c; space_no := space_no (self w) |};
               conns := conns w; trace := trace w |}).

Definition set_self_space_no (n : pyval) : M C unit :=
  fun w =>
    (Ok tt, {| self := {| connection := connection (self w); space_no := n |};
               conns := conns w; trace := trace w |}).

(** [c.return_tuple] *)
Definition conn_return_tuple (c : conn_ref) : M C pyval :=
  fun w => (Ok (return_tuple (conns w c)), log (GetReturnTuple c) w).

(** A method call on connection [c]: the request is recorded, the
    connection answers and moves to its next state. *)
Definition conn_request (c : conn_ref) (r : request) : M C pyval :=
  fun w =>
    let '(res, st) := serve r (conns w c) in
    (res, {| self := self w;
             conns := <[c := st]> (conns w);
             trace := trace w ++ [Sent c r] |}).

Context {consts : BoxConst}.

(** *** The methods of [Space], with their parameters bound *)

(** [connection.schema.space_no(space_name)] *)
Definition schema_space_no (connection : conn_ref) (space_name : pyval)
    : M C pyval :=
  conn_request connection (SchemaSpaceNo space_name).

(** [Space.__init__] (lines 20-31): the connection is stored first, then
    the space is looked up and its number stored; an exception of the
    lookup propagates. *)
Definition __init__ (connection : conn_ref) (space_name : pyval) : M C pyval :=
  set_self_connection connection ;;;
  no <- schema_space_no connection space_name ;;
  set_self_space_no no ;;;
  ret VNone.

(** [Space.replace] (lines 33-50).  The call to [_insert] is an
    expression statement: the method falls off its end and yields
    [None]. *)
Definition replace (values return_tuple : pyval) : M C pyval :=
  return_tuple <- (if is_None return_tuple
                   then c <- self_connection ;; conn_return_tuple c
                   else ret return_tuple) ;;
  c <- self_connection ;;
  no <- self_space_no ;;
  conn_request c
    (Insert_ no values
       (Z.lor (if truthy return_tuple then BOX_RETURN_TUPLE else 0)
              BOX_REPLACE)) ;;;
  ret VNone.

(** [Space.store] (lines 52-70), no [return] either. *)
Definition store (values return_tuple : pyval) : M C pyval :=
  return_tuple <- (if is_None return_tuple
                   then c <- self_connection ;; conn_return_tuple c
                   else ret return_tuple) ;;
  c <- self_connection ;;
  no <- self_space_no ;;
  conn_request c
    (Insert_ no values
       (if truthy return_tuple then BOX_RETURN_TUPLE else 0)) ;;;
  ret VNone.

(** [Space.insert] (lines 72-89), no [return] either. *)
Definition insert (values return_tuple : pyval) : M C pyval :=
  return_tuple <- (if is_None return_tuple
                   then c <- self_connection ;; conn_return_tuple c
                   else ret return_tuple) ;;
  c <- self_connection ;;
  no <- self_space_no ;;
  conn_request c
    (Insert_ no values
       (Z.lor (if truthy return_tuple then BOX_RETURN_TUPLE else 0)
              BOX_ADD)) ;;;
  ret VNone.

(** [Space.delete] (lines 91-105) returns what the connection returns. *)
Definition delete (key return_tuple : pyval) : M C pyval :=
  return_tuple <- (if is_None return_tuple
                   then c <- self_connection ;; conn_return_tuple c
                   else ret return_tuple) ;;
  c <- self_connection ;;
  no <- self_space_no ;;
  conn_request c (Delete no key return_tuple).

(** [Space.update] (lines 107-122). *)
Definition update (key op_list return_tuple : pyval) : M C pyval :=
  return_tuple <- (if is_None return_tuple
                   then c <- self_connection ;; conn_return_tuple c
                   else ret return_tuple) ;;
  c <- self_connection ;;
  no <- self_space_no ;;
  conn_request c (Update no key op_list return_tuple).

(** [kwargs.get(name, dflt)] *)
Definition kwargs_get (kwargs : gmap string pyval) (name : string)
    (dflt : pyval) : pyval :=
  default dflt (kwargs !! name).

(** [Space.select] (lines 124-149); [kwargs] is the dictionary the
    interpreter collects the surplus keyword arguments in. *)
Definition select (values : pyval) (kwargs : gmap string pyval) : M C pyval :=
  let index := kwargs_get kwargs "index" (VInt 0) in
  let offset := kwargs_get kwargs "offset" (VInt 0) in
  let limit := kwargs_get kwargs "limit" (VInt 0xffffffff) in
  c <- self_connection ;;
  no <- self_space_no ;;
  conn_request c (Select no values index offset limit).

(** [Space.call] (lines 151-174): positional and keyword arguments are
    passed on as they came. *)
Definition call (func_name : pyval) (args : list pyval)
    (kwargs : gmap string pyval) : M C pyval :=
  c <- self_connection ;;
  conn_request c (Call func_name args kwargs).

End WithConnection.

(** ** Calling a method

    How the interpreter binds the arguments of a call
    [space.m(a1, ..., an, k1=v1, ..., km=vm)] to the parameters of
    [def m(self, p1, ..., pk=dflt, *args, **kwargs)]. *)

(** The parameters after [self], each with its default if it has one,
    and whether the signature ends in [*args] and in [**kwargs]. *)
Record signature : Type := {
  sig_params : list (string * option pyval);
  sig_varargs : bool;
  sig_varkw : bool
}.

(** The outcome of binding: the values of the named parameters in
    order, the surplus positional arguments ([*args]) and the surplus
    keyword arguments ([**kwargs]). *)
Record bound : Type := {
  named : list pyval;
  star_args : list pyval;
  star_kwargs : gmap string pyval
}.

(** Positional arguments fill the parameters from the left; a parameter
    filled that way must not be named again by a keyword; a parameter
    left over takes its keyword argument, else its default, else the
    call is an error.  Returns the parameter values and the positional
    arguments that were not consumed. *)
Fixpoint bind_params (params : list (string * option pyval))
    (args : list pyval) (kwargs : gmap string pyval)
    : result (list pyval * list pyval) :=
  match params with
  | [] => Ok ([], args)
  | (name, dflt) :: params' =>
      match args with
      | a :: args' =>
          match kwargs !! name with
          | Some _ => Raise (TypeError "got multiple values for argument")
          | None =>
              match bind_params params' args' kwargs with
              | Ok (vs, extra) => Ok (a :: vs, extra)
              | Raise e => Raise e
              end
          end
      | [] =>
          match kwargs !! name, dflt with
          | Some v, _ | None, Some v =>
              match bind_params params' [] kwargs with
              | Ok (vs, extra) => Ok (v :: vs, extra)
              | Raise e => Raise e
              end
          | None, None => Raise (TypeError "missing required argument")
          end
      end
  end.

(** The keyword arguments that name no parameter. *)
Definition surplus_kwargs (params : list (string * option pyval))
    (kwargs : gmap string pyval) : gmap string pyval :=
  foldr (fun p kw => base.delete (fst p) kw) kwargs params.

Definition is_nil {A} (l : list A) : bool :=
  match l with
  | [] => true
  | _ :: _ => false
  end.

(** Binding for a bound method: [self] is the receiver, so a keyword
    argument named [self] is a second value for it. *)
Definition bind_args (sg : signature) (args : list pyval)
    (kwargs : gmap string pyval) : result bound :=
  match kwargs !! "self" with
  | Some _ => Raise (TypeError "got multiple values for argument 'self'")
  | None =>
      match bind_params (sig_params sg) args kwargs with
      | Raise e => Raise e
      | Ok (vs, extra) =>
          let rest := surplus_kwargs (sig_params sg) kwargs in
          if negb (sig_varargs sg) && negb (is_nil extra) then
            Raise (TypeError "too many positional arguments")
          else if negb (sig_varkw sg) && negb (Nat.eqb (size rest) 0) then
            Raise (TypeError "got an unexpected keyword argument")
          else
            Ok {| named := vs; star_args := extra; star_kwargs := rest |}
      end
  end.

(** The seven methods and their signatures. *)
Inductive method : Type :=
| m_replace | m_store | m_insert | m_delete | m_update | m_select | m_call.

Definition signature_of (m : method) : signature :=
  match m with
  | m_replace | m_store | m_insert =>
      (* def replace(self, values, return_tuple=None) *)
      {| sig_params := [("values", None); ("return_tuple", Some VNone)];
         sig_varargs := false; sig_varkw := false |}
  | m_delete =>
      (* def delete(self, key, return_tuple=None) *)
      {| sig_params := [("key", None); ("return_tuple", Some VNone)];
         sig_varargs := false; sig_varkw := false |}
  | m_update =>
      (* def update(self, key, op_list, return_tuple=None) *)
      {| sig_params := [("key", None); ("op_list", None);
                        ("return_tuple", Some VNone)];
         sig_varargs := false; sig_varkw := false |}
  | m_select =>
      (* def select(self, values, **kwargs) *)
      {| sig_params := [("values", None)];
         sig_varargs := false; sig_varkw := true |}
  | m_call =>
      (* def call(self, func_name, *args, **kwargs) *)
      {| sig_params := [("func_name", None)];
         sig_varargs := true; sig_varkw := true |}
  end.

Section Invoke.
Context {C : Type} {conn : Connection C} {consts : BoxConst}.

(** The body of a method run on its bound parameters.  The last
    branch is never taken: binding yields one value per parameter
    ([bind_args_named_length]). *)
Definition run_body (m : method) (b : bound) : M C pyval :=
  match m, named b with
  | m_replace, [values; return_tuple] => replace values return_tuple
  | m_store, [values; return_tuple] => store values return_tuple
  | m_insert, [values; return_tuple] => insert values return_tuple
  | m_delete, [key; return_tuple] => delete key return_tuple
  | m_update, [key; op_list; return_tuple] => update key op_list return_tuple
  | m_select, [values] => select values (star_kwargs b)
  | m_call, [func_name] => call func_name (star_args b) (star_kwargs b)
  | _, _ => raise (TypeError "arity")
  end.

(** [self.m( *args, **kwargs)] *)
Definition invoke (m : method) (args : list pyval)
    (kwargs : gmap string pyval) : M C pyval :=
  match bind_args (signature_of m) args kwargs with
  | Raise e => raise e
  | Ok b => run_body m b
  end.

End Invoke.

(** ** Call sites *)

(** A call of one of the five methods that take [return_tuple], with
    its required arguments passed positionally. *)
Inductive flagged_call : Type :=
| call_replace (values : pyval)
| call_store (values : pyval)
| call_insert (values : pyval)
| call_delete (key : pyval)
| call_update (key op_list : pyval).

Definition flagged_method (fc : flagged_call) : method :=
  match fc with
  | call_replace _ => m_replace
  | call_store _ => m_store
  | call_insert _ => m_insert
  | call_delete _ => m_delete
  | call_update _ _ => m_update
  end.

Definition flagged_args (fc : flagged_call) : list pyval :=
  match fc with
  | call_replace values | call_store values | call_insert values => [values]
  | call_delete key => [key]
  | call_update key op_list => [key; op_list]
  end.

(** How the caller passes [return_tuple]: not at all, as the next
    positional argument, or by name. *)
Inductive flag_arg : Type :=
| omitted
| positional (v : pyval)
| keyword (v : pyval).

Definition flag_positional (f : flag_arg) : list pyval :=
  match f with
  | positional v => [v]
  | _ => []
  end.

Definition flag_keyword (f : flag_arg) : gmap string pyval :=
  match f with
  | keyword v => {[ "return_tuple" := v ]}
  | _ => ∅
  end.

Section CallSites.
Context {C : Type} {conn : Connection C} {consts : BoxConst}.

(** [space.replace(values)], [space.replace(values, v)],
    [space.replace(values, return_tuple=v)], and so on. *)
Definition call_with (fc : flagged_call) (f : flag_arg) : M C pyval :=
  invoke (flagged_method fc) (flagged_args fc ++ flag_positional f)
    (flag_keyword f).

(** The value the parameter [return_tuple] is bound to. *)
Definition flag_value (f : flag_arg) : pyval :=
  match f with
  | omitted => VNone
  | positional v | keyword v => v
  end.

(** The body a call site runs once its arguments are bound. *)
Definition flagged_body (fc : flagged_call) (return_tuple : pyval)
    : M C pyval :=
  match fc with
  | call_replace values => replace values return_tuple
  | call_store values => store values return_tuple
  | call_insert values => insert values return_tuple
  | call_delete key => delete key return_tuple
  | call_update key op_list => update key op_list return_tuple
  end.

(** What a computation appended to the trace of the world it ran in. *)
Definition emitted {A} (m : M C A) (w : world C) : list event :=
  drop (length (trace w)) (trace (snd (m w))).

(** The requests among some events. *)
Definition requests (evs : list event) : list (conn_ref * request) :=
  omap (fun e => match e with
                 | Sent c r => Some (c, r)
                 | GetReturnTuple _ => None
                 end) evs.

End CallSites.

(** The [return_tuple] argument of a request that has one. *)
Definition request_return_tuple (r : request) : option pyval :=
  match r with
  | Delete _ _ rt | Update _ _ _ rt => Some rt
  | _ => None
  end.

(** Whether a request is the schema lookup. *)
Definition is_lookup (r : request) : bool :=
  match r with
  | SchemaSpaceNo _ => true
  | _ => false
  end.

(** Every value a request carries to the connection: its positional
    arguments in order, then the values of its keyword arguments. *)
Definition request_values (r : request) : list pyval :=
  match r with
  | SchemaSpaceNo space_name => [space_name]
  | Insert_ no values flags => [no; values; VInt flags]
  | Delete no key rt => [no; key; rt]
  | Update no key op_list rt => [no; key; op_list; rt]
  | Select no values index offset limit => [no; values; index; offset; limit]
  | Call func_name args kwargs =>
      func_name :: args ++ map snd (map_to_list kwargs)
  end.

(** [r] is a call of one of the four request methods whose first
    parameter is the space number ([_insert], [delete], [update],
    [select]), with [no] passed for it. *)
Definition space_request_for (no : pyval) (r : request) : Prop :=
  match r with
  | Insert_ n _ _ | Delete n _ _ | Update n _ _ _ | Select n _ _ _ _ => n = no
  | SchemaSpaceNo _ | Call _ _ _ => False
  end.

(** ** What the operations are expected to send

    The two definitions below follow the description of the operations,
    not the code; the theorems compare the code with them. *)

(** The flag an operation works with: the caller's, unless it is
    [None], in which case the default of the connection. *)
Definition resolved (flag dflt : pyval) : pyval :=
  if is_None flag then dflt else flag.

(** The request each operation hands to the connection for space
    [no] and the resolved flag [rt]: the insert primitive with the flags
    word for [replace], [store] and [insert], the delete and update
    primitives with the flag itself. *)
Definition expected_request `{BoxConst} (fc : flagged_call) (no rt : pyval)
    : request :=
  let rt_flag := if truthy rt then BOX_RETURN_TUPLE else 0 in
  match fc with
  | call_replace values => Insert_ no values (Z.lor rt_flag BOX_REPLACE)
  | call_store values => Insert_ no values rt_flag
  | call_insert values => Insert_ no values (Z.lor rt_flag BOX_ADD)
  | call_delete key => Delete no key rt
  | call_update key op_list => Update no key op_list rt
  end.

(** Whether every bit of [mask] is set in [flags]. *)
Definition has_flag (flags mask : Z) : bool := Z.eqb (Z.land flags mask) mask.

(** The three flags are different bits of the flags word. *)
Definition flags_distinct `{BoxConst} : Prop :=
  BOX_RETURN_TUPLE <> 0 /\ BOX_ADD <> 0 /\ BOX_REPLACE <> 0 /\
  Z.land BOX_RETURN_TUPLE BOX_ADD = 0 /\
  Z.land BOX_RETURN_TUPLE BOX_REPLACE = 0 /\
  Z.land BOX_ADD BOX_REPLACE = 0.

(** ** A connection to run examples against

    It knows one space, ["users"], numbered 7, accepts any number as a
    space number, answers every other request with a fixed response and
    counts the requests it served. *)
Record stub_conn : Type := {
  stub_return_tuple : pyval;
  stub_response : pyval;
  stub_served : nat
}.

Definition stub_serve (r : request) (st : stub_conn) : result pyval * stub_conn :=
  let st' := {| stub_return_tuple := stub_return_tuple st;
                stub_response := stub_response st;
                stub_served := S (stub_served st) |} in
  match r with
  | SchemaSpaceNo (VInt n) => (Ok (VInt n), st')
  | SchemaSpaceNo (VStr s) =>
      if String.eqb s "users" then (Ok (VInt 7), st')
      else (Raise (ConnError "KeyError" s), st')
  | SchemaSpaceNo _ => (Raise (ConnError "KeyError" "space"), st')
  | _ => (Ok (stub_response st), st')
  end.

#[export] Instance stub_connection : Connection stub_conn :=
  {| return_tuple := stub_return_tuple; serve := stub_serve |}.

Definition stub_rows : pyval := VList [VTuple [VInt 1; VStr "alice"]].

Definition stub_world (dflt : pyval) : world stub_conn :=
  {| self := {| connection := 0%N; space_no := VInt 7 |};
     conns := fun _ => {| stub_return_tuple := dflt;
                          stub_response := stub_rows;
                          stub_served := 0 |};
     trace := [] |}.


(** ** Signatures and results, read off the methods *)

(** The methods that take [return_tuple]. *)
Definition is_flagged (m : method) : bool :=
  match m with
  | m_replace | m_store | m_insert | m_delete | m_update => true
  | m_select | m_call => false
  end.

(** What a method yields for the answer of the connection: [delete],
    [update], [select] and [call] end in [return self.connection....];
    [replace], [store] and [insert] end without a [return]. *)
Definition method_result (m : method) (answer : result pyval) : result pyval :=
  match m with
  | m_replace | m_store | m_insert =>
      match answer with
      | Ok _ => Ok VNone
      | Raise e => Raise e
      end
  | m_delete | m_update | m_select | m_call => answer
  end.

(** The names of the parameters of a signature. *)
Definition param_names (sg : signature) : list string :=
  map fst (sig_params sg).

(** The number of parameters without a default. *)
Definition required_params (sg : signature) : nat :=
  length (List.filter (fun p => match snd p with
                                | None => true
                                | Some _ => false
                                end) (sig_params sg)).

(** Whether a call with [n] positional arguments and no keyword
    arguments fits the signature. *)
Definition arity_ok (sg : signature) (n : nat) : bool :=
  Nat.leb (required_params sg) n
  && (sig_varargs sg || Nat.leb n (length (sig_params sg))).

(** A call site with every argument passed by name:
    [space.update(key=k, op_list=ops, return_tuple=v)] and the like. *)
Definition keyword_args (fc : flagged_call) (flag : option pyval)
    : gmap string pyval :=
  let required : gmap string pyval :=
    match fc with
    | call_replace values | call_store values | call_insert values =>
        {["values" := values]}
    | call_delete key => {["key" := key]}
    | call_update key op_list => <["key" := key]> {["op_list" := op_list]}
    end in
  match flag with
  | Some v => <["return_tuple" := v]> required
  | None => required
  end.

(** ** A connection that is down

    It answers every request with an exception. *)
Inductive down_conn : Type := Down.

#[export] Instance down_connection : Connection down_conn :=
  {| return_tuple := fun _ => VBool false;
     serve := fun _ st => (Raise (ConnError "NetworkError" "refused"), st) |}.

Definition down_world : world down_conn :=
  {| self := {| connection := 0%N; space_no := VInt 7 |};
     conns := fun _ => Down;
     trace := [] |}.

(** * Properties *)

(** ** Argument binding *)

Lemma bind_params_length params args kwargs vs extra :
  bind_params params args kwargs = Ok (vs, extra) ->
  length vs = length params.
Proof.
  revert args vs extra.
  induction params as [|[name dflt] params IH]; intros args vs extra Hb.
  - simpl in Hb. by inversion Hb.
  - simpl in Hb. destruct args as [|a args'].
    + destruct (kwargs !! name) as [v|], dflt as [d|]; try discriminate;
        destruct (bind_params params [] kwargs) as [[vs' extra']|] eqn:E;
        try discriminate; inversion Hb; subst; simpl; f_equal; eauto.
    + destruct (kwargs !! name); [discriminate|].
      destruct (bind_params params args' kwargs) as [[vs' extra']|] eqn:E;
        try discriminate.
      inversion Hb; subst; simpl; f_equal; eauto.
Qed.

(** Binding yields one value per named parameter, so the arity branch
    of [run_body] is dead. *)
Lemma bind_args_named_length sg args kwargs b :
  bind_args sg args kwargs = Ok b ->
  length (named b) = length (sig_params sg).
Proof.
  unfold bind_args. destruct (kwargs !! "self"); [discriminate|].
  destruct (bind_params _ _ _) as [[vs extra]|] eqn:E; [|discriminate].
  destruct (_ && _); [discriminate|]. destruct (_ && _); [discriminate|].
  intros [= <-]. simpl. eauto using bind_params_length.
Qed.

Lemma bind_flagged fc f :
  bind_args (signature_of (flagged_method fc))
    (flagged_args fc ++ flag_positional f) (flag_keyword f)
  = Ok {| named := flagged_args fc ++ [flag_value f];
          star_args := []; star_kwargs := ∅ |}.
Proof. destruct fc, f; vm_compute; reflexivity. Qed.

(** Binding at work on the signatures of [Space]. *)

Example bind_update_by_keyword :
  bind_args (signature_of m_update) [VInt 1] {["op_list" := VList []]}
  = Ok {| named := [VInt 1; VList []; VNone];
          star_args := []; star_kwargs := ∅ |}.
Proof. vm_compute. reflexivity. Qed.

Example bind_delete_missing_key :
  bind_args (signature_of m_delete) [] ∅
  = Raise (TypeError "missing required argument").
Proof. vm_compute. reflexivity. Qed.

Example bind_delete_surplus_positional :
  bind_args (signature_of m_delete) [VInt 1; VBool true; VInt 3] ∅
  = Raise (TypeError "too many positional arguments").
Proof. vm_compute. reflexivity. Qed.

Example bind_delete_unknown_keyword :
  bind_args (signature_of m_delete) [VInt 1] {["retrun_tuple" := VBool true]}
  = Raise (TypeError "got an unexpected keyword argument").
Proof. vm_compute. reflexivity. Qed.

Example bind_select_positional_index :
  bind_args (signature_of m_select) [VInt 1; VInt 0] ∅
  = Raise (TypeError "too many positional arguments").
Proof. vm_compute. reflexivity. Qed.

Example bind_call_collects :
  bind_args (signature_of m_call) [VStr "box.info"; VInt 1; VInt 2]
    {["return_tuple" := VBool true]}
  = Ok {| named := [VStr "box.info"];
          star_args := [VInt 1; VInt 2];
          star_kwargs := {["return_tuple" := VBool true]} |}.
Proof. vm_compute. reflexivity. Qed.

Section Properties.
Context {C : Type} {conn : Connection C} {consts : BoxConst}.

Lemma call_with_body fc f : call_with fc f = flagged_body fc (flag_value f).
Proof.
  unfold call_with, invoke. rewrite bind_flagged.
  destruct fc; reflexivity.
Qed.

(** The complete effect of a flagged operation: the events it adds,
    the state the connection is left in, and its result, which is the
    answer of the connection for [delete] and [update] and [None] for
    the other three. *)
Lemma flagged_body_run fc v w :
  let c := connection (self w) in
  let r := expected_request fc (space_no (self w))
             (resolved v (return_tuple (conns w c))) in
  let answer := serve r (conns w c) in
  flagged_body fc v w =
    (match fc with
     | call_delete _ | call_update _ _ => fst answer
     | _ => match fst answer with
            | Ok _ => Ok VNone
            | Raise e => Raise e
            end
     end,
     {| self := self w;
        conns := <[c := snd answer]> (conns w);
        trace := trace w
                 ++ (if is_None v then [GetReturnTuple c] else [])
                 ++ [Sent c r] |}).
Proof.
  destruct fc; cbn -[base.insert];
    unfold replace, store, insert, delete, update, resolved, bind,
      self_connection, self_space_no, conn_return_tuple, conn_request,
      ret, log;
    destruct (is_None v); cbn -[base.insert];
    destruct (serve _ _) as [[a|e] st]; cbn -[base.insert];
    rewrite <- ?app_assoc; reflexivity.
Qed.

Lemma emitted_app {A} (m : M C A) w evs :
  trace (snd (m w)) = trace w ++ evs -> emitted m w = evs.
Proof. unfold emitted. intros ->. apply drop_app_length. Qed.

Lemma flagged_body_emitted fc v w :
  let c := connection (self w) in
  emitted (flagged_body fc v) w =
    (if is_None v then [GetReturnTuple c] else [])
    ++ [Sent c (expected_request fc (space_no (self w))
                  (resolved v (return_tuple (conns w c))))].
Proof.
  intros c. apply emitted_app. rewrite flagged_body_run. reflexivity.
Qed.

(** *** Results of [replace], [store] and [insert] *)

(** None of the three bodies has a [return] statement: when the
    connection answers, whatever it answers, the method yields
    [None]. *)
Lemma insert_family_result fc f w :
  match fc with call_delete _ | call_update _ _ => False | _ => True end ->
  let c := connection (self w) in
  let r := expected_request fc (space_no (self w))
             (resolved (flag_value f) (return_tuple (conns w c))) in
  fst (call_with fc f w) =
    match fst (serve r (conns w c)) with
    | Ok _ => Ok VNone
    | Raise e => Raise e
    end.
Proof.
  intros Hfc c r. rewrite call_with_body, flagged_body_run.
  destruct fc; try contradiction; reflexivity.
Qed.

(** [delete] and [update] do return the answer of the connection. *)
Lemma delete_update_result fc f w :
  match fc with call_delete _ | call_update _ _ => True | _ => False end ->
  let c := connection (self w) in
  let r := expected_request fc (space_no (self w))
             (resolved (flag_value f) (return_tuple (conns w c))) in
  fst (call_with fc f w) = fst (serve r (conns w c)).
Proof.
  intros Hfc c r. rewrite call_with_body, flagged_body_run.
  destruct fc; try contradiction; reflexivity.
Qed.

(** *** The return-tuple flag *)

(** C2. When the caller leaves [return_tuple] out, each of [replace],
    [store], [insert], [delete] and [update] reads the [return_tuple]
    attribute of the connection while it runs and sends the request
    built from that value: [delete] and [update] pass it on as it is,
    the other three encode it in the flags word.  The value is the one
    the connection has at the call, whatever it was when the Space
    was constructed. *)
Theorem omitted_flag_forwards_default (fc : flagged_call) :
  (forall w : world C,
     let c := connection (self w) in
     emitted (call_with fc omitted) w =
       [GetReturnTuple c;
        Sent c (expected_request fc (space_no (self w))
                  (return_tuple (conns w c)))]) /\
  (forall c name (w0 w1 : world C) later,
     __init__ c name w0 = (Ok VNone, w1) ->
     emitted (call_with fc omitted)
       {| self := self w1; conns := later; trace := trace w1 |} =
     [GetReturnTuple c;
      Sent c (expected_request fc (space_no (self w1))
                (return_tuple (later c)))]).
Proof.
  assert (Hcall : forall w : world C,
    emitted (call_with fc omitted) w =
      [GetReturnTuple (connection (self w));
       Sent (connection (self w))
         (expected_request fc (space_no (self w))
            (return_tuple (conns w (connection (self w)))))]).
  { intros w. rewrite call_with_body. apply flagged_body_emitted. }
  split; [apply Hcall|].
  intros c name w0 w1 later Hinit. rewrite Hcall. cbn.
  assert (Hc : connection (self w1) = c); [|by rewrite Hc].
  revert Hinit.
  unfold __init__, bind, set_self_connection, set_self_space_no,
    schema_space_no, conn_request, ret. cbn -[base.insert].
  destruct (serve _ _) as [[no|e] st]; intros [= <-]; reflexivity.
Qed.

(** C3. When the caller passes a boolean for [return_tuple], as the
    next positional argument or by name, the request is built from
    exactly that boolean, also when it is [False], and the
    [return_tuple] attribute of the connection is not read: the request
    is the only event. *)
Theorem explicit_flag_forwarded (fc : flagged_call) (b : bool)
    (w : world C) :
  let c := connection (self w) in
  let sent := [Sent c (expected_request fc (space_no (self w)) (VBool b))] in
  emitted (call_with fc (positional (VBool b))) w = sent /\
  emitted (call_with fc (keyword (VBool b))) w = sent /\
  forall f c', f = positional (VBool b) \/ f = keyword (VBool b) ->
    GetReturnTuple c' ∉ emitted (call_with fc f) w.
Proof.
  intros c sent.
  assert (Hcall : forall f, flag_value f = VBool b ->
            emitted (call_with fc f) w = sent).
  { intros f Hf. rewrite call_with_body, flagged_body_emitted, Hf.
    reflexivity. }
  split; [by apply Hcall|]. split; [by apply Hcall|].
  intros f c' Hf. rewrite Hcall by (by destruct Hf as [-> | ->]).
  unfold sent. intros Hin. apply list_elem_of_singleton in Hin. discriminate.
Qed.

(** C10, as the code has it.  Passing [None] for [return_tuple],
    positionally or by name, is the same call as leaving it out: the two
    runs agree on the result, on the events and on the state they leave,
    and both send the default of the connection.  A [delete] or [update]
    request therefore carries [None] as its flag only when the caller
    gave no flag other than [None] and the default of the connection is
    itself [None]. *)
Theorem explicit_None_is_omission (fc : flagged_call) (w : world C) :
  let c := connection (self w) in
  call_with fc (positional VNone) w = call_with fc omitted w /\
  call_with fc (keyword VNone) w = call_with fc omitted w /\
  emitted (call_with fc (positional VNone)) w =
    [GetReturnTuple c;
     Sent c (expected_request fc (space_no (self w))
               (return_tuple (conns w c)))] /\
  (forall f c' r,
     (c', r) ∈ requests (emitted (call_with fc f) w) ->
     request_return_tuple r = Some VNone ->
     flag_value f = VNone /\ return_tuple (conns w c) = VNone).
Proof.
  intros c. rewrite !call_with_body. cbn [flag_value].
  split; [reflexivity|]. split; [reflexivity|].
  split; [apply flagged_body_emitted|].
  intros f c' r. rewrite call_with_body, flagged_body_emitted.
  fold c. unfold resolved.
  destruct (flag_value f) eqn:Hf; cbn;
    intros Hin; apply list_elem_of_singleton in Hin;
    injection Hin as -> ->; destruct fc; cbn; intros [= ?]; done.
Qed.

(** *** The flags word *)

Lemma has_flag_bits (rt : bool) :
  flags_distinct ->
  let rt_flag := if rt then BOX_RETURN_TUPLE else 0 in
  (has_flag (Z.lor rt_flag BOX_REPLACE) BOX_REPLACE = true /\
   has_flag (Z.lor rt_flag BOX_REPLACE) BOX_ADD = false /\
   has_flag (Z.lor rt_flag BOX_REPLACE) BOX_RETURN_TUPLE = rt) /\
  (has_flag rt_flag BOX_REPLACE = false /\
   has_flag rt_flag BOX_ADD = false /\
   has_flag rt_flag BOX_RETURN_TUPLE = rt) /\
  (has_flag (Z.lor rt_flag BOX_ADD) BOX_REPLACE = false /\
   has_flag (Z.lor rt_flag BOX_ADD) BOX_ADD = true /\
   has_flag (Z.lor rt_flag BOX_ADD) BOX_RETURN_TUPLE = rt).
Proof.
  intros (Hrt & Hadd & Hrep & Hra & Hrr & Har) rt_flag.
  assert (Har' : Z.land BOX_REPLACE BOX_ADD = 0) by (by rewrite Z.land_comm).
  assert (Hra' : Z.land BOX_ADD BOX_RETURN_TUPLE = 0)
    by (by rewrite Z.land_comm).
  assert (Hrr' : Z.land BOX_REPLACE BOX_RETURN_TUPLE = 0)
    by (by rewrite Z.land_comm).
  unfold has_flag, rt_flag.
  destruct rt;
    rewrite ?Z.land_lor_distr_l, ?Z.land_diag, ?Z.land_0_l, ?Hra, ?Hrr,
      ?Har, ?Har', ?Hra', ?Hrr', ?Z.lor_0_l, ?Z.lor_0_r, ?Z.eqb_refl;
    repeat split; try reflexivity; apply Z.eqb_neq; congruence.
Qed.

(** C4. [replace], [store] and [insert] each send exactly one request,
    the insert primitive of the connection, with the space number of
    the Space and the record as given.  Only the flags word differs:
    [BOX_REPLACE] for replace, nothing for store, [BOX_ADD] for
    insert, each ORed with [BOX_RETURN_TUPLE] when the resolved
    return-tuple value is true and with 0 otherwise.  When the three
    constants are different bits, testing the word gives back exactly
    that. *)
Theorem insert_family_flags (values : pyval) (f : flag_arg) (w : world C) :
  let c := connection (self w) in
  let no := space_no (self w) in
  let rt := resolved (flag_value f) (return_tuple (conns w c)) in
  let rt_flag := if truthy rt then BOX_RETURN_TUPLE else 0 in
  let flags_replace := Z.lor rt_flag BOX_REPLACE in
  let flags_store := rt_flag in
  let flags_insert := Z.lor rt_flag BOX_ADD in
  (requests (emitted (call_with (call_replace values) f) w) =
     [(c, Insert_ no values flags_replace)] /\
   requests (emitted (call_with (call_store values) f) w) =
     [(c, Insert_ no values flags_store)] /\
   requests (emitted (call_with (call_insert values) f) w) =
     [(c, Insert_ no values flags_insert)]) /\
  (flags_distinct ->
   (has_flag flags_replace BOX_REPLACE = true /\
    has_flag flags_replace BOX_ADD = false /\
    has_flag flags_replace BOX_RETURN_TUPLE = truthy rt) /\
   (has_flag flags_store BOX_REPLACE = false /\
    has_flag flags_store BOX_ADD = false /\
    has_flag flags_store BOX_RETURN_TUPLE = truthy rt) /\
   (has_flag flags_insert BOX_REPLACE = false /\
    has_flag flags_insert BOX_ADD = true /\
    has_flag flags_insert BOX_RETURN_TUPLE = truthy rt)).
Proof.
  intros c no rt rt_flag flags_replace flags_store flags_insert.
  split.
  - rewrite !call_with_body, !flagged_body_emitted.
    unfold requests. rewrite !omap_app.
    destruct (is_None (flag_value f)); repeat split; reflexivity.
  - intros Hd. exact (has_flag_bits (truthy rt) Hd).
Qed.

(** *** select *)

(** The request [select] sends for the keys and options it is given. *)
Lemma select_run values (kwargs : gmap string pyval) (w : world C) :
  select values kwargs w =
    conn_request (connection (self w))
      (Select (space_no (self w)) values
         (default (VInt 0) (kwargs !! "index"))
         (default (VInt 0) (kwargs !! "offset"))
         (default (VInt 4294967295) (kwargs !! "limit"))) w.
Proof. reflexivity. Qed.

Lemma invoke_select_positional values (kwargs : gmap string pyval) :
  kwargs !! "self" = None -> kwargs !! "values" = None ->
  invoke m_select [values] kwargs
  = select values (base.delete "values" kwargs).
Proof.
  intros Hself Hvalues. unfold invoke, bind_args. cbn. by rewrite Hself, Hvalues.
Qed.

Lemma invoke_select_keyword values (kwargs : gmap string pyval) :
  kwargs !! "self" = None -> kwargs !! "values" = Some values ->
  invoke m_select [] kwargs = select values (base.delete "values" kwargs).
Proof.
  intros Hself Hvalues. unfold invoke, bind_args. cbn. by rewrite Hself, Hvalues.
Qed.

Lemma invoke_select_surplus values extra rest (kwargs : gmap string pyval) :
  exists msg, invoke m_select (values :: extra :: rest) kwargs
              = raise (TypeError msg).
Proof.
  unfold invoke, bind_args. cbn.
  destruct (kwargs !! "self"); [by eexists|].
  destruct (kwargs !! "values"); by eexists.
Qed.

(** The options [select] reads are those the caller passed, whatever
    became of a keyword argument named [values]. *)
Lemma select_delete_values values (kwargs : gmap string pyval) w :
  select values (base.delete "values" kwargs) w = select values kwargs w.
Proof. rewrite !select_run. by rewrite !lookup_delete_ne. Qed.

(** C5. A call of [select] with anything positional after the keys is
    rejected with a [TypeError] before the connection is touched: the
    signature has one positional parameter and no [*args], so [index],
    [offset] and [limit] cannot arrive by position.  Passed by name
    they are accepted and sent on. *)
Theorem select_options_by_name_only :
  (forall values extra rest kwargs (w : world C),
     exists msg,
       invoke m_select (values :: extra :: rest) kwargs w
       = (Raise (TypeError msg), w)) /\
  (forall values index offset limit (w : world C),
     invoke m_select [values]
       (<["index" := index]> (<["offset" := offset]> {["limit" := limit]})) w
     = conn_request (connection (self w))
         (Select (space_no (self w)) values index offset limit) w).
Proof.
  split.
  - intros values extra rest kwargs w.
    destruct (invoke_select_surplus values extra rest kwargs) as [msg ->].
    by exists msg.
  - intros values index offset limit w.
    rewrite invoke_select_positional by done.
    rewrite select_delete_values, select_run.
    by simplify_map_eq.
Qed.

(** C6. Every call of [select] either is rejected with a [TypeError]
    before anything is sent, or sends one select request that carries
    the space number of the Space, the keys of the caller (given
    positionally or as [values=]), and for each of [index], [offset]
    and [limit] the value passed under that name, or else its default:
    0, 0 and 0xffffffff.  A call with the keys alone in first position
    and no keyword named [values] or [self] is of the second kind. *)
Theorem select_defaults (kwargs : gmap string pyval) (w : world C) :
  let forwarded values :=
    conn_request (connection (self w))
      (Select (space_no (self w)) values
         (default (VInt 0) (kwargs !! "index"))
         (default (VInt 0) (kwargs !! "offset"))
         (default (VInt 4294967295) (kwargs !! "limit"))) w in
  (forall args,
     (exists msg, invoke m_select args kwargs w = (Raise (TypeError msg), w)) \/
     (exists values,
        (args = [values] \/ args = [] /\ kwargs !! "values" = Some values) /\
        invoke m_select args kwargs w = forwarded values)) /\
  (forall values,
     kwargs !! "self" = None -> kwargs !! "values" = None ->
     invoke m_select [values] kwargs w = forwarded values).
Proof.
  intros forwarded.
  assert (Hpos : forall values,
    kwargs !! "self" = None -> kwargs !! "values" = None ->
    invoke m_select [values] kwargs w = forwarded values).
  { intros values Hself Hvalues.
    rewrite invoke_select_positional by done.
    by rewrite select_delete_values, select_run. }
  split; [|exact Hpos].
  intros args.
  destruct (kwargs !! "self") as [s|] eqn:Hself.
  { left. unfold invoke, bind_args. rewrite Hself. by eexists. }
  destruct args as [|values [|extra rest]].
  - destruct (kwargs !! "values") as [values|] eqn:Hvalues.
    + right. exists values. split; [by right|].
      rewrite (invoke_select_keyword values) by done.
      by rewrite select_delete_values, select_run.
    + left. unfold invoke, bind_args. cbn. rewrite Hself, Hvalues.
      by eexists.
  - destruct (kwargs !! "values") as [v|] eqn:Hvalues.
    + left. unfold invoke, bind_args. cbn. rewrite Hself, Hvalues.
      by eexists.
    + right. exists values. split; [by left|]. by apply Hpos.
  - left. destruct (invoke_select_surplus values extra rest kwargs)
      as [msg ->]. by exists msg.
Qed.

(** C9. A keyword option of [select] named anything but [index],
    [offset] or [limit] is ignored: the body reads those three names
    from its options and nothing else, so the run with the extra
    option is the run without it, no error is raised for it, and an
    option the caller meant but misspelt is sent with its default.
    ([values] and [self] name parameters of the method, not options;
    as keywords they are arguments and never reach the options.) *)
Theorem select_ignores_unknown_options (k : string) (v : pyval) :
  k <> "index" -> k <> "offset" -> k <> "limit" ->
  (forall values (kwargs : gmap string pyval) (w : world C),
     select values (<[k := v]> kwargs) w = select values kwargs w) /\
  (k <> "values" -> k <> "self" ->
   (forall args (kwargs : gmap string pyval) (w : world C),
      invoke m_select args (<[k := v]> kwargs) w
      = invoke m_select args kwargs w) /\
   (forall values (w : world C),
      invoke m_select [values] {[k := v]} w
      = conn_request (connection (self w))
          (Select (space_no (self w)) values
             (VInt 0) (VInt 0) (VInt 4294967295)) w)).
Proof.
  intros Hindex Hoffset Hlimit.
  assert (Hbody : forall values (kwargs : gmap string pyval) (w : world C),
    select values (<[k := v]> kwargs) w = select values kwargs w).
  { intros values kwargs w. rewrite !select_run.
    by rewrite !lookup_insert_ne. }
  split; [exact Hbody|].
  intros Hvalues Hself. split.
  - intros args kwargs w. unfold invoke, bind_args.
    rewrite (lookup_insert_ne kwargs k "self") by done.
    destruct (kwargs !! "self"); [done|].
    destruct args as [|a [|extra rest]]; cbn;
      rewrite (lookup_insert_ne kwargs k "values") by done;
      destruct (kwargs !! "values"); cbn; try done;
      unfold kwargs_get; by rewrite !lookup_delete_ne, !lookup_insert_ne.
  - intros values w.
    rewrite invoke_select_positional by (by apply lookup_singleton_ne).
    rewrite select_delete_values, select_run.
    by rewrite !lookup_singleton_ne.
Qed.

(** *** All seven operations *)

Lemma emitted_raise {A} e (w : world C) : emitted (raise (A := A) e) w = [].
Proof. unfold emitted, raise. cbn. apply drop_all. Qed.

Lemma conn_request_self c r (w : world C) :
  self (snd (conn_request c r w)) = self w.
Proof. unfold conn_request. by destruct (serve _ _). Qed.

Lemma call_run func_name args kwargs (w : world C) :
  call func_name args kwargs w
  = conn_request (connection (self w)) (Call func_name args kwargs) w.
Proof. reflexivity. Qed.

Lemma select_emitted values (kwargs : gmap string pyval) (w : world C) :
  emitted (select values kwargs) w =
    [Sent (connection (self w))
       (Select (space_no (self w)) values
          (default (VInt 0) (kwargs !! "index"))
          (default (VInt 0) (kwargs !! "offset"))
          (default (VInt 4294967295) (kwargs !! "limit")))].
Proof.
  apply emitted_app. rewrite select_run. unfold conn_request.
  by destruct (serve _ _).
Qed.

Lemma call_emitted func_name args kwargs (w : world C) :
  emitted (call func_name args kwargs) w =
    [Sent (connection (self w)) (Call func_name args kwargs)].
Proof.
  apply emitted_app. rewrite call_run. unfold conn_request.
  by destruct (serve _ _).
Qed.

(** What a method does once its arguments are bound is one of the
    seven bodies; the arity branch aside, which binding rules out. *)
Lemma run_body_cases m b :
  run_body m b = raise (TypeError "arity") \/
  (exists fc v, flagged_method fc = m /\ run_body m b = flagged_body fc v) \/
  (m = m_select /\
   exists values, run_body m b = select values (star_kwargs b)) \/
  (m = m_call /\
   exists func_name,
     run_body m b = call func_name (star_args b) (star_kwargs b)).
Proof.
  unfold run_body.
  destruct m, (named b) as [|x [|y [|z [|? ?]]]]; auto.
  - right; left. by exists (call_replace x), y.
  - right; left. by exists (call_store x), y.
  - right; left. by exists (call_insert x), y.
  - right; left. by exists (call_delete x), y.
  - right; left. by exists (call_update x y), z.
  - right; right; left. eauto.
  - right; right; right. eauto.
Qed.

(** C8. Whichever of the seven methods is called, with whatever
    arguments, and whether it returns or raises, the Space object is
    afterwards what it was before: same connection reference, same
    space number.  Only [__init__] assigns to them. *)
Theorem operations_preserve_self (m : method) (args : list pyval)
    (kwargs : gmap string pyval) (w : world C) :
  self (snd (invoke m args kwargs w)) = self w.
Proof.
  unfold invoke. destruct (bind_args _ _ _) as [b|e]; [|reflexivity].
  destruct (run_body_cases m b)
    as [-> | [(fc & v & _ & ->) | [(_ & values & ->) | (_ & fn & ->)]]].
  - reflexivity.
  - by rewrite flagged_body_run.
  - rewrite select_run. apply conn_request_self.
  - rewrite call_run. apply conn_request_self.
Qed.

(** *** Construction *)

Lemma init_run c name (w : world C) :
  __init__ c name w =
    let answer := serve (SchemaSpaceNo name) (conns w c) in
    (match fst answer with
     | Ok _ => Ok VNone
     | Raise e => Raise e
     end,
     {| self := {| connection := c;
                   space_no := match fst answer with
                               | Ok no => no
                               | Raise _ => space_no (self w)
                               end |};
        conns := <[c := snd answer]> (conns w);
        trace := trace w ++ [Sent c (SchemaSpaceNo name)] |}).
Proof.
  unfold __init__, bind, set_self_connection, set_self_space_no,
    schema_space_no, conn_request, ret. cbn -[base.insert].
  by destruct (serve _ _) as [[no|e] st].
Qed.

End Properties.

(** * The operations run against the stub connection *)

#[local] Existing Instance box_const_1_5.

(** C1. The connection answers the insert request with a response, and
    [delete] hands such a response back to its caller, but [replace],
    [store] and [insert] end without a [return]: the caller gets [None],
    not the response their docstrings announce. *)
Theorem replace_store_insert_return_None :
  let w := stub_world (VBool true) in
  let record := VTuple [VInt 1; VStr "alice"] in
  fst (conn_request 0%N (Insert_ (VInt 7) record 5) w) = Ok stub_rows /\
  fst (call_with (call_replace record) omitted w) = Ok VNone /\
  fst (call_with (call_store record) omitted w) = Ok VNone /\
  fst (call_with (call_insert record) omitted w) = Ok VNone /\
  fst (call_with (call_delete (VInt 1)) omitted w) = Ok stub_rows.
Proof. vm_compute. repeat split. Qed.

(** A Space is constructed while the default is [False]; the default is
    then switched to [True]; a later [delete] without a flag sends
    [True]. *)
Lemma omitted_flag_forwards_default_witness :
  let w0 := stub_world (VBool false) in
  let w1 := snd (__init__ 0%N (VStr "users") w0) in
  let later := conns (stub_world (VBool true)) in
  __init__ 0%N (VStr "users") w0 = (Ok VNone, w1) /\
  emitted (call_with (call_delete (VInt 1)) omitted)
    {| self := self w1; conns := later; trace := trace w1 |}
  = [GetReturnTuple 0%N; Sent 0%N (Delete (VInt 7) (VInt 1) (VBool true))].
Proof.
  intros w0 w1 later.
  assert (Hinit : __init__ 0%N (VStr "users") w0 = (Ok VNone, w1))
    by (vm_compute; reflexivity).
  split; [exact Hinit|].
  exact (proj2 (omitted_flag_forwards_default (call_delete (VInt 1)))
           0%N (VStr "users") w0 w1 later Hinit).
Defined.

Lemma explicit_flag_forwarded_witness :
  GetReturnTuple 0%N ∉
    emitted (call_with (call_update (VInt 1) (VList []))
               (keyword (VBool false)))
      (stub_world (VBool true)).
Proof.
  exact (proj2 (proj2 (explicit_flag_forwarded
                         (call_update (VInt 1) (VList [])) false
                         (stub_world (VBool true))))
           (keyword (VBool false)) 0%N (or_intror eq_refl)).
Defined.

Lemma flags_distinct_1_5 : flags_distinct.
Proof. vm_compute. repeat split; discriminate. Defined.

Lemma insert_family_flags_witness :
  has_flag (Z.lor 1 4) BOX_REPLACE = true /\
  has_flag (Z.lor 1 4) BOX_ADD = false /\
  has_flag (Z.lor 1 4) BOX_RETURN_TUPLE = true.
Proof.
  exact (proj1 (proj2 (insert_family_flags (VTuple [VInt 1]) omitted
                         (stub_world (VBool true)))
                  flags_distinct_1_5)).
Defined.

Lemma select_defaults_witness :
  invoke m_select [VInt 1] {["offset" := VInt 10]} (stub_world (VBool false))
  = conn_request 0%N
      (Select (VInt 7) (VInt 1) (VInt 0) (VInt 10) (VInt 4294967295))
      (stub_world (VBool false)).
Proof.
  exact (proj2 (select_defaults {["offset" := VInt 10]}
                  (stub_world (VBool false)))
           (VInt 1) eq_refl eq_refl).
Defined.

Lemma select_ignores_unknown_options_witness :
  invoke m_select [VInt 1] {["indx" := VInt 3]} (stub_world (VBool false))
  = conn_request 0%N
      (Select (VInt 7) (VInt 1) (VInt 0) (VInt 0) (VInt 4294967295))
      (stub_world (VBool false)).
Proof.
  refine (proj2 (proj2 (select_ignores_unknown_options "indx" (VInt 3)
                          _ _ _) _ _)
            (VInt 1) (stub_world (VBool false)));
    discriminate.
Defined.

(** * Further properties of the methods *)

Lemma bind_params_TypeError params args kwargs e :
  bind_params params args kwargs = Raise e -> exists msg, e = TypeError msg.
Proof.
  revert args. induction params as [|[name dflt] params IH]; intros args Hb.
  - discriminate.
  - simpl in Hb. destruct args as [|a args'].
    + destruct (kwargs !! name) as [v|], dflt as [d|];
        try (injection Hb as <-; by eexists);
        destruct (bind_params params [] kwargs) as [[vs extra]|e'] eqn:E;
        try discriminate; injection Hb as <-; eauto.
    + destruct (kwargs !! name); [injection Hb as <-; by eexists|].
      destruct (bind_params params args' kwargs) as [[vs extra]|e'] eqn:E;
        try discriminate.
      injection Hb as <-. eauto.
Qed.

(** Every failure of binding is a [TypeError]. *)
Lemma bind_args_TypeError sg args kwargs e :
  bind_args sg args kwargs = Raise e -> exists msg, e = TypeError msg.
Proof.
  unfold bind_args. destruct (kwargs !! "self"); [intros [= <-]; by eexists|].
  destruct (bind_params _ _ _) as [[vs extra]|e'] eqn:E.
  - destruct (_ && _); [intros [= <-]; by eexists|].
    destruct (_ && _); [intros [= <-]; by eexists|]. discriminate.
  - intros [= <-]. eauto using bind_params_TypeError.
Qed.

(** A keyword that names no parameter stays among the surplus keyword
    arguments. *)
Lemma surplus_kwargs_lookup params (kwargs : gmap string pyval) k :
  k ∉ map fst params -> surplus_kwargs params kwargs !! k = kwargs !! k.
Proof.
  unfold surplus_kwargs. induction params as [|[name dflt] params IH]; cbn.
  - done.
  - intros Hk. apply not_elem_of_cons in Hk as [Hne Hk].
    rewrite lookup_delete_ne by done. auto.
Qed.

Section MoreProperties.
Context {C : Type} {conn : Connection C} {consts : BoxConst}.

Lemma invoke_rejected m args kwargs e (w : world C) :
  bind_args (signature_of m) args kwargs = Raise e ->
  exists msg, invoke m args kwargs w = (Raise (TypeError msg), w).
Proof.
  intros Hb. unfold invoke. rewrite Hb.
  destruct (bind_args_TypeError _ _ _ _ Hb) as [msg ->]. by exists msg.
Qed.

(** Once binding has succeeded the arity branch of [run_body] is out:
    one of the seven bodies runs. *)
Lemma run_body_bound m args kwargs b :
  bind_args (signature_of m) args kwargs = Ok b ->
  (exists fc v, flagged_method fc = m /\ run_body m b = flagged_body fc v) \/
  (m = m_select /\
   exists values, run_body m b = select values (star_kwargs b)) \/
  (m = m_call /\
   exists func_name,
     run_body m b = call func_name (star_args b) (star_kwargs b)).
Proof.
  intros Hb. apply bind_args_named_length in Hb. unfold run_body.
  destruct m, (named b) as [|x [|y [|z [|? ?]]]]; try discriminate Hb.
  - left. by exists (call_replace x), y.
  - left. by exists (call_store x), y.
  - left. by exists (call_insert x), y.
  - left. by exists (call_delete x), y.
  - left. by exists (call_update x y), z.
  - right; left. eauto.
  - right; right. eauto.
Qed.

Lemma conn_request_run c r (w : world C) :
  conn_request c r w =
    (fst (serve r (conns w c)),
     {| self := self w;
        conns := <[c := snd (serve r (conns w c))]> (conns w);
        trace := trace w ++ [Sent c r] |}).
Proof. unfold conn_request. by destruct (serve _ _). Qed.

(** The whole effect of a call that binding accepts: at most one read of
    [return_tuple], then one request to the connection of the Space,
    served from the state the connection was in. *)
Lemma invoke_accepted m args kwargs b (w : world C) :
  bind_args (signature_of m) args kwargs = Ok b ->
  exists r reads,
    let c := connection (self w) in
    let answer := serve r (conns w c) in
    (reads = [] \/ reads = [GetReturnTuple c] /\ is_flagged m = true) /\
    is_lookup r = false /\
    invoke m args kwargs w =
      (method_result m (fst answer),
       {| self := self w;
          conns := <[c := snd answer]> (conns w);
          trace := trace w ++ reads ++ [Sent c r] |}).
Proof.
  intros Hb. unfold invoke. rewrite Hb.
  destruct (run_body_bound _ _ _ _ Hb)
    as [(fc & v & <- & ->) | [(-> & values & ->) | (-> & fn & ->)]].
  - rewrite flagged_body_run.
    exists (expected_request fc (space_no (self w))
              (resolved v (return_tuple (conns w (connection (self w)))))),
           (if is_None v then [GetReturnTuple (connection (self w))] else []).
    split; [destruct (is_None v); [right|left]; by destruct fc|].
    split; by destruct fc.
  - rewrite select_run, conn_request_run. eexists _, []. by repeat split; [left|..].
  - rewrite call_run, conn_request_run. eexists _, []. by repeat split; [left|..].
Qed.

(** Every call is of one of two kinds. *)
Lemma invoke_shape m args kwargs (w : world C) :
  (exists msg,
     invoke m args kwargs w = (Raise (TypeError msg), w) /\
     emitted (invoke m args kwargs) w = []) \/
  (exists r reads,
     let c := connection (self w) in
     let answer := serve r (conns w c) in
     (reads = [] \/ reads = [GetReturnTuple c] /\ is_flagged m = true) /\
     is_lookup r = false /\
     invoke m args kwargs w =
       (method_result m (fst answer),
        {| self := self w;
           conns := <[c := snd answer]> (conns w);
           trace := trace w ++ reads ++ [Sent c r] |}) /\
     emitted (invoke m args kwargs) w = reads ++ [Sent c r] /\
     requests (emitted (invoke m args kwargs) w) = [(c, r)]).
Proof.
  destruct (bind_args (signature_of m) args kwargs) as [b|e] eqn:Hb.
  - right. destruct (invoke_accepted m args kwargs b w Hb)
      as (r & reads & Hreads & Hr & Hrun).
    exists r, reads. cbn in *.
    assert (Hem : emitted (invoke m args kwargs) w
                  = reads ++ [Sent (connection (self w)) r]).
    { apply emitted_app. by rewrite Hrun. }
    repeat split; try done. rewrite Hem.
    by destruct Hreads as [-> | [-> _]].
  - left. destruct (invoke_rejected m args kwargs e w Hb) as [msg Hrun].
    exists msg. split; [done|]. unfold emitted. rewrite Hrun. cbn.
    apply drop_all.
Qed.

(** *** Results and exceptions *)

(** X1. Space catches nothing and raises nothing of its own.  If the
    connection answers the request of a method with an exception, the
    method raises that exception; and an exception out of a method is
    either that of the connection or the [TypeError] of a call that does
    not fit the signature, raised before anything was sent. *)
Theorem connection_exception_propagates (m : method) (args : list pyval)
    (kwargs : gmap string pyval) (w : world C) :
  (forall c r e,
     (c, r) ∈ requests (emitted (invoke m args kwargs) w) ->
     fst (serve r (conns w c)) = Raise e ->
     fst (invoke m args kwargs w) = Raise e) /\
  (forall e,
     fst (invoke m args kwargs w) = Raise e ->
     (exists msg, e = TypeError msg /\
                  emitted (invoke m args kwargs) w = []) \/
     (exists c r, (c, r) ∈ requests (emitted (invoke m args kwargs) w) /\
                  fst (serve r (conns w c)) = Raise e)).
Proof.
  destruct (invoke_shape m args kwargs w)
    as [(msg & Hrun & Hem) | (r & reads & _ & _ & Hrun & _ & Hreq)];
    cbn in *.
  - split.
    + intros c r e. rewrite Hem. cbn. by intros ?%elem_of_nil.
    + intros e. rewrite Hrun. cbn. intros [= <-]. left. eauto.
  - split.
    + intros c r' e. rewrite Hreq. intros Hin.
      apply list_elem_of_singleton in Hin. injection Hin as -> ->.
      rewrite Hrun. cbn. intros ->. by destruct m.
    + intros e. rewrite Hrun. cbn. intros He. right.
      exists (connection (self w)), r. rewrite Hreq.
      split; [apply list_elem_of_here|].
      destruct m; cbn in He; try done;
        by destruct (fst (serve r _)); [discriminate|].
Qed.

(** X2. [delete], [update], [select] and [call] hand the answer of the
    connection to their caller as it is, a response or an exception. *)
Theorem returning_methods_hand_back_answer (m : method) (args : list pyval)
    (kwargs : gmap string pyval) (w : world C) :
  m = m_delete \/ m = m_update \/ m = m_select \/ m = m_call ->
  forall c r,
    (c, r) ∈ requests (emitted (invoke m args kwargs) w) ->
    fst (invoke m args kwargs w) = fst (serve r (conns w c)).
Proof.
  intros Hm c r.
  destruct (invoke_shape m args kwargs w)
    as [(msg & Hrun & Hem) | (r' & reads & _ & _ & Hrun & _ & Hreq)];
    cbn in *.
  - rewrite Hem. cbn. by intros ?%elem_of_nil.
  - rewrite Hreq. intros Hin.
    apply list_elem_of_singleton in Hin. injection Hin as -> ->.
    rewrite Hrun. cbn. by destruct Hm as [-> | [-> | [-> | ->]]].
Qed.

(** *** What a call does to the connections *)

(** X3. A call never sends more than one request.  Either it is rejected
    with a [TypeError] and nothing at all happens, or exactly one
    request, never a schema lookup, goes to the connection of the Space;
    the only other thing done to the connection is one read of
    [return_tuple] before the request, and only by the five methods that
    take that flag. *)
Theorem at_most_one_request (m : method) (args : list pyval)
    (kwargs : gmap string pyval) (w : world C) :
  let c := connection (self w) in
  (exists msg, invoke m args kwargs w = (Raise (TypeError msg), w)) \/
  (exists r,
     is_lookup r = false /\
     (emitted (invoke m args kwargs) w = [Sent c r] \/
      is_flagged m = true /\
      emitted (invoke m args kwargs) w = [GetReturnTuple c; Sent c r])).
Proof.
  destruct (invoke_shape m args kwargs w)
    as [(msg & Hrun & _) | (r & reads & Hreads & Hr & _ & Hem & _)];
    cbn in *.
  - left. eauto.
  - right. exists r. split; [done|]. rewrite Hem.
    destruct Hreads as [-> | [-> Hm]]; [by left|by right].
Qed.

(** X4. A call changes the state of no connection but the one the Space
    holds, and that one is served once, from the state it was in when
    the method was called. *)
Theorem only_own_connection_changes (m : method) (args : list pyval)
    (kwargs : gmap string pyval) (w : world C) :
  (forall c', c' <> connection (self w) ->
     conns (snd (invoke m args kwargs w)) c' = conns w c') /\
  (forall c r,
     (c, r) ∈ requests (emitted (invoke m args kwargs) w) ->
     conns (snd (invoke m args kwargs w)) c = snd (serve r (conns w c))).
Proof.
  destruct (invoke_shape m args kwargs w)
    as [(msg & Hrun & Hem) | (r & reads & _ & _ & Hrun & _ & Hreq)];
    cbn in *.
  - split.
    + intros c' _. by rewrite Hrun.
    + intros c r. rewrite Hem. cbn. by intros ?%elem_of_nil.
  - split.
    + intros c' Hc'. rewrite Hrun. cbn. by rewrite fn_lookup_insert_ne.
    + intros c r'. rewrite Hreq. intros Hin.
      apply list_elem_of_singleton in Hin. injection Hin as -> ->.
      rewrite Hrun. cbn. by rewrite fn_lookup_insert.
Qed.

(** *** call *)

(** X5. [call] passes the function name, the further positional
    arguments in their order and every keyword argument to
    [connection.call] as they came: nothing is added, dropped or
    defaulted.  In particular [return_tuple] is not resolved here: left
    out it stays out, given as [None] it is sent as [None]. *)
Theorem call_passes_arguments_through (func_name : pyval)
    (args : list pyval) (kwargs : gmap string pyval) (w : world C) :
  kwargs !! "self" = None -> kwargs !! "func_name" = None ->
  invoke m_call (func_name :: args) kwargs w
  = conn_request (connection (self w)) (Call func_name args kwargs) w.
Proof.
  intros Hself Hname.
  assert (Hb : bind_args (signature_of m_call) (func_name :: args) kwargs
               = Ok {| named := [func_name]; star_args := args;
                       star_kwargs := kwargs |}).
  { unfold bind_args. cbn. rewrite Hself, Hname. cbn.
    unfold surplus_kwargs. cbn. by rewrite delete_id. }
  unfold invoke. rewrite Hb. reflexivity.
Qed.

(** *** Calls that do not fit the signature *)

(** X6. The five methods that take [return_tuple] have no [**kwargs]:
    a keyword argument that names none of their parameters, a misspelt
    [return_tuple] for one, makes the call a [TypeError] and nothing is
    sent.  ([select] ignores such a keyword.) *)
Theorem flagged_methods_reject_unknown_keyword (m : method)
    (args : list pyval) (kwargs : gmap string pyval) (k : string)
    (v : pyval) (w : world C) :
  is_flagged m = true ->
  k ∉ param_names (signature_of m) ->
  exists msg,
    invoke m args (<[k := v]> kwargs) w = (Raise (TypeError msg), w).
Proof.
  intros Hm Hk.
  destruct (bind_args (signature_of m) args (<[k := v]> kwargs))
    as [b|e] eqn:Hb; [|by eapply invoke_rejected].
  exfalso. revert Hb. unfold bind_args.
  destruct (_ !! "self"); [discriminate|].
  destruct (bind_params _ _ _) as [[vs extra]|e]; [|discriminate].
  destruct (negb (sig_varargs _) && _); [discriminate|].
  assert (Hsize : size (surplus_kwargs (sig_params (signature_of m))
                          (<[k := v]> kwargs)) <> 0%nat).
  { apply map_size_ne_0_lookup. exists k.
    rewrite surplus_kwargs_lookup by done.
    rewrite lookup_insert_eq. by eexists. }
  apply Nat.eqb_neq in Hsize. rewrite Hsize.
  by destruct m.
Qed.

Lemma bind_args_positional (m : method) (args : list pyval) :
  match bind_args (signature_of m) args ∅ with
  | Ok _ => arity_ok (signature_of m) (length args) = true
  | Raise _ => arity_ok (signature_of m) (length args) = false
  end.
Proof.
  destruct m, args as [|a [|b [|c [|d rest]]]]; vm_compute; reflexivity.
Qed.

(** X7. Called with positional arguments only, a method sends its
    request exactly when the number of arguments fits its signature:
    one or two for [replace], [store], [insert] and [delete], two or
    three for [update], one for [select], one or more for [call].  With
    fewer or more the call is a [TypeError] and nothing is sent. *)
Theorem positional_arity (m : method) (args : list pyval) (w : world C) :
  if arity_ok (signature_of m) (length args)
  then exists r,
         requests (emitted (invoke m args ∅) w) = [(connection (self w), r)]
  else exists msg, invoke m args ∅ w = (Raise (TypeError msg), w).
Proof.
  pose proof (bind_args_positional m args) as Hb.
  destruct (bind_args (signature_of m) args ∅) as [b|e] eqn:Hbind;
    rewrite Hb.
  - destruct (invoke_accepted m args ∅ b w Hbind)
      as (r & reads & Hreads & _ & Hrun).
    exists r. cbn in *.
    rewrite (emitted_app (invoke m args ∅) w
               (reads ++ [Sent (connection (self w)) r]))
      by (by rewrite Hrun).
    by destruct Hreads as [-> | [-> _]].
  - by eapply invoke_rejected.
Qed.

(** *** Flags that are not booleans *)

(** X8. The flag is only ever compared with [None] and tested for
    truth.  So any value other than [None] counts as given and the
    default of the connection is not read; [replace], [store] and
    [insert] then send the same request for any two such values of
    equal truth (0, the empty string and the empty tuple work like
    [False]), while [delete] and [update] send the value itself. *)
Theorem flag_other_than_None (fc : flagged_call) (v1 v2 : pyval)
    (w : world C) :
  is_None v1 = false -> is_None v2 = false ->
  let c := connection (self w) in
  (forall c', GetReturnTuple c' ∉ emitted (call_with fc (positional v1)) w) /\
  (truthy v1 = truthy v2 ->
   match fc with
   | call_replace _ | call_store _ | call_insert _ =>
       call_with fc (positional v1) w = call_with fc (positional v2) w
   | call_delete key =>
       emitted (call_with fc (positional v1)) w
       = [Sent c (Delete (space_no (self w)) key v1)]
   | call_update key op_list =>
       emitted (call_with fc (positional v1)) w
       = [Sent c (Update (space_no (self w)) key op_list v1)]
   end).
Proof.
  intros H1 H2 c. split.
  - intros c'. rewrite call_with_body, flagged_body_emitted. cbn.
    rewrite H1. cbn. intros Hin. apply list_elem_of_singleton in Hin.
    discriminate.
  - intros Ht. destruct fc;
      rewrite ?call_with_body, ?flagged_body_emitted, ?flagged_body_run;
      cbn; unfold resolved; rewrite ?H1, ?H2, ?Ht; reflexivity.
Qed.

(** *** Arguments passed by name *)

(** X9. The required arguments can be passed by name as well: a call of
    one of the five flagged methods with every argument given as a
    keyword runs exactly as the call with the required arguments in
    position. *)
Theorem keyword_call_is_positional_call (fc : flagged_call)
    (flag : option pyval) :
  invoke (C := C) (flagged_method fc) [] (keyword_args fc flag)
  = call_with fc (match flag with
                  | Some v => keyword v
                  | None => omitted
                  end).
Proof.
  rewrite call_with_body. unfold invoke.
  assert (Hb : bind_args (signature_of (flagged_method fc)) []
                 (keyword_args fc flag)
               = Ok {| named := flagged_args fc ++ [default VNone flag];
                       star_args := []; star_kwargs := ∅ |})
    by (destruct fc, flag; vm_compute; reflexivity).
  rewrite Hb. by destruct fc, flag.
Qed.

(** *** Construction followed by an operation *)

(** X10. Constructing a Space and then calling one of the five flagged
    methods sends the lookup and then the request for the number the
    lookup returned; the default flag is read from the connection as the
    lookup left it.  If the lookup raises, the operation is not run:
    the lookup is the only request and its exception is the result. *)
Theorem construct_then_operate (c : conn_ref) (name : pyval)
    (fc : flagged_call) (f : flag_arg) (w : world C) :
  let lookup := serve (SchemaSpaceNo name) (conns w c) in
  let program := (__init__ c name ;;; call_with fc f) in
  match fst lookup with
  | Ok no =>
      emitted program w =
        [Sent c (SchemaSpaceNo name)]
        ++ (if is_None (flag_value f) then [GetReturnTuple c] else [])
        ++ [Sent c (expected_request fc no
                      (resolved (flag_value f) (return_tuple (snd lookup))))]
  | Raise e =>
      emitted program w = [Sent c (SchemaSpaceNo name)] /\
      fst (program w) = Raise e
  end.
Proof.
  intros lookup program. unfold lookup, program.
  destruct (serve (SchemaSpaceNo name) (conns w c)) as [[no|e] st] eqn:Hs;
    cbn [fst snd].
  - apply emitted_app. unfold bind. rewrite init_run, Hs. cbn [fst snd].
    rewrite call_with_body, flagged_body_run. cbn.
    rewrite fn_lookup_insert. by rewrite <- app_assoc.
  - unfold emitted, bind. rewrite init_run, Hs. cbn.
    by rewrite drop_app_length.
Qed.

(** *** The insert family *)

(** X11. Whenever [replace], [store] or [insert] returns, it returns
    [None]: for every connection, every way of calling it and every
    answer of the connection. *)
Theorem insert_family_yields_None (m : method) (args : list pyval)
    (kwargs : gmap string pyval) (w : world C) :
  m = m_replace \/ m = m_store \/ m = m_insert ->
  match fst (invoke m args kwargs w) with
  | Ok v => v = VNone
  | Raise _ => True
  end.
Proof.
  intros Hm.
  destruct (invoke_shape m args kwargs w)
    as [(msg & -> & _) | (r & reads & _ & _ & -> & _)]; cbn; [done|].
  destruct Hm as [-> | [-> | ->]]; cbn; by destruct (fst (serve _ _)).
Qed.

(** X12. When the three constants are different bits, the request tells
    the connection which of [replace], [store] and [insert] was called
    and whether the tuple is wanted back: two calls that send the same
    request are calls of the same method with the same record and with
    flags of the same truth. *)
Theorem insert_request_determines_call (fc1 fc2 : flagged_call)
    (f1 f2 : flag_arg) (w : world C) :
  flags_distinct ->
  match fc1 with call_delete _ | call_update _ _ => False | _ => True end ->
  match fc2 with call_delete _ | call_update _ _ => False | _ => True end ->
  requests (emitted (call_with fc1 f1) w)
  = requests (emitted (call_with fc2 f2) w) ->
  let dflt := return_tuple (conns w (connection (self w))) in
  fc1 = fc2 /\
  truthy (resolved (flag_value f1) dflt)
  = truthy (resolved (flag_value f2) dflt).
Proof.
  intros Hd Hfc1 Hfc2 Hreq dflt.
  rewrite !call_with_body, !flagged_body_emitted in Hreq.
  unfold requests in Hreq. rewrite !omap_app in Hreq. fold dflt in Hreq.
  assert (Hr : expected_request fc1 (space_no (self w))
                 (resolved (flag_value f1) dflt)
               = expected_request fc2 (space_no (self w))
                   (resolved (flag_value f2) dflt)).
  { destruct (is_None (flag_value f1)), (is_None (flag_value f2));
      cbn in Hreq; congruence. }
  clear Hreq.
  pose proof (has_flag_bits (truthy (resolved (flag_value f1) dflt)) Hd)
    as ((A1 & A2 & A3) & (B1 & B2 & B3) & (C1 & C2 & C3)).
  pose proof (has_flag_bits (truthy (resolved (flag_value f2) dflt)) Hd)
    as ((A1' & A2' & A3') & (B1' & B2' & B3') & (C1' & C2' & C3')).
  cbv zeta in *.
  destruct fc1, fc2; try contradiction; cbn in Hr;
    injection Hr as -> Hflags;
    pose proof (f_equal (fun x => has_flag x BOX_REPLACE) Hflags) as E1;
    pose proof (f_equal (fun x => has_flag x BOX_ADD) Hflags) as E2;
    pose proof (f_equal (fun x => has_flag x BOX_RETURN_TUPLE) Hflags) as E3;
    cbn beta in E1, E2, E3; split; congruence.
Qed.

(** *** The stored space number *)

(** C7, as the code has it.  [__init__] performs the schema lookup of
    the connection once, with the name or number it was given, and
    stores the connection and the number that lookup returned, the
    very number a direct call of the lookup yields; if the lookup
    raises, so does [__init__].  Afterwards every operation other than
    [call], unless the call is rejected for not fitting the signature,
    sends one request to the stored connection, and that request is a
    call of [_insert], [delete], [update] or [select] with the stored
    number as its space. *)
Theorem init_stores_schema_space_no :
  (forall c name (w : world C),
     match schema_space_no c name w with
     | (Ok no, w') =>
         __init__ c name w =
           (Ok VNone, {| self := {| connection := c; space_no := no |};
                         conns := conns w'; trace := trace w' |})
     | (Raise e, w') =>
         __init__ c name w =
           (Raise e, {| self := {| connection := c;
                                   space_no := space_no (self w) |};
                        conns := conns w'; trace := trace w' |})
     end) /\
  (forall m args kwargs (w : world C),
     m <> m_call ->
     (exists msg, invoke m args kwargs w = (Raise (TypeError msg), w)) \/
     (exists r,
        requests (emitted (invoke m args kwargs) w)
        = [(connection (self w), r)] /\
        space_request_for (space_no (self w)) r /\
        space_no (self w) ∈ request_values r)).
Proof.
  split.
  - intros c name w. rewrite init_run.
    unfold schema_space_no, conn_request.
    by destruct (serve _ _) as [[no|e] st].
  - intros m args kwargs w Hm.
    destruct (bind_args (signature_of m) args kwargs) as [b|e] eqn:Hb;
      [right|left; by eapply invoke_rejected].
    unfold invoke. rewrite Hb.
    destruct (run_body_bound _ _ _ _ Hb)
      as [(fc & v & <- & ->) | [(-> & values & ->) | (-> & fn & ->)]].
    + exists (expected_request fc (space_no (self w))
                (resolved v (return_tuple (conns w (connection (self w)))))).
      rewrite flagged_body_emitted. unfold requests. rewrite omap_app.
      split; [by destruct (is_None v)|].
      split; destruct fc; cbn; try done; apply list_elem_of_here.
    + eexists. rewrite select_emitted. cbn.
      split; [reflexivity|]. split; [done|apply list_elem_of_here].
    + done.
Qed.

End MoreProperties.

(** ** The further properties at work *)

(** [replace] on a connection that is down raises what the connection
    raised. *)
Lemma connection_exception_propagates_witness :
  fst (invoke m_replace [VTuple [VInt 1; VStr "alice"]] ∅ down_world)
  = Raise (ConnError "NetworkError" "refused").
Proof.
  refine (proj1 (connection_exception_propagates m_replace
                   [VTuple [VInt 1; VStr "alice"]] ∅ down_world)
            0%N (Insert_ (VInt 7) (VTuple [VInt 1; VStr "alice"]) 4)
            (ConnError "NetworkError" "refused") _ eq_refl).
  vm_compute. apply list_elem_of_here.
Defined.

Lemma returning_methods_hand_back_answer_witness :
  fst (invoke m_select [VInt 1] ∅ (stub_world (VBool false))) = Ok stub_rows.
Proof.
  refine (returning_methods_hand_back_answer m_select [VInt 1] ∅
            (stub_world (VBool false))
            (or_intror (or_intror (or_introl eq_refl)))
            0%N (Select (VInt 7) (VInt 1) (VInt 0) (VInt 0) (VInt 4294967295))
            _).
  vm_compute. apply list_elem_of_here.
Defined.

Lemma only_own_connection_changes_witness :
  conns (snd (invoke m_delete [VInt 1] ∅ (stub_world (VBool false)))) 1%N
  = conns (stub_world (VBool false)) 1%N.
Proof.
  refine (proj1 (only_own_connection_changes m_delete [VInt 1] ∅
                   (stub_world (VBool false))) 1%N _).
  discriminate.
Defined.

Lemma call_passes_arguments_through_witness :
  invoke m_call [VStr "box.info"; VInt 1] {["return_tuple" := VNone]}
    (stub_world (VBool true))
  = conn_request 0%N
      (Call (VStr "box.info") [VInt 1] {["return_tuple" := VNone]})
      (stub_world (VBool true)).
Proof.
  exact (call_passes_arguments_through (VStr "box.info") [VInt 1]
           {["return_tuple" := VNone]} (stub_world (VBool true))
           eq_refl eq_refl).
Defined.

Lemma flagged_methods_reject_unknown_keyword_witness :
  exists msg,
    invoke m_delete [VInt 1] (<["retrun_tuple" := VBool true]> ∅)
      (stub_world (VBool false))
    = (Raise (TypeError msg), stub_world (VBool false)).
Proof.
  refine (flagged_methods_reject_unknown_keyword m_delete [VInt 1] ∅
            "retrun_tuple" (VBool true) (stub_world (VBool false))
            eq_refl _).
  cbn. intros Hin.
  repeat (apply elem_of_cons in Hin as [Hin|Hin]; [discriminate|]).
  by apply elem_of_nil in Hin.
Defined.

(** [replace(record, 0)] is [replace(record, False)], whatever the
    default of the connection. *)
Lemma flag_other_than_None_witness :
  call_with (call_replace (VTuple [VInt 1])) (positional (VInt 0))
    (stub_world (VBool true))
  = call_with (call_replace (VTuple [VInt 1])) (positional (VBool false))
      (stub_world (VBool true)).
Proof.
  exact (proj2 (flag_other_than_None (call_replace (VTuple [VInt 1]))
                  (VInt 0) (VBool false) (stub_world (VBool true))
                  eq_refl eq_refl)
           eq_refl).
Defined.

Lemma insert_family_yields_None_witness :
  match fst (invoke m_store [VTuple [VInt 1; VStr "alice"]] ∅
               (stub_world (VBool true))) with
  | Ok v => v = VNone
  | Raise _ => True
  end.
Proof.
  exact (insert_family_yields_None m_store [VTuple [VInt 1; VStr "alice"]] ∅
           (stub_world (VBool true)) (or_intror (or_introl eq_refl))).
Defined.

(** [store(record, 1)] and [store(record, True)] send the same request:
    the two flags have the same truth. *)
Lemma insert_request_determines_call_witness :
  call_store (VTuple [VInt 1]) = call_store (VTuple [VInt 1]) /\
  truthy (resolved (flag_value (positional (VInt 1))) (VBool false))
  = truthy (resolved (flag_value (positional (VBool true))) (VBool false)).
Proof.
  refine (insert_request_determines_call
            (call_store (VTuple [VInt 1])) (call_store (VTuple [VInt 1]))
            (positional (VInt 1)) (positional (VBool true))
            (stub_world (VBool false)) flags_distinct_1_5 I I _).
  vm_compute. reflexivity.
Defined.

(** ** The stored space number and the [None] flag at work *)

Lemma init_stores_schema_space_no_witness :
  (exists msg,
     invoke m_select [VInt 1] ∅ (stub_world (VBool false))
     = (Raise (TypeError msg), stub_world (VBool false))) \/
  (exists r,
     requests (emitted (invoke m_select [VInt 1] ∅) (stub_world (VBool false)))
     = [(0%N, r)] /\
     space_request_for (VInt 7) r /\
     VInt 7 ∈ request_values r).
Proof.
  refine (proj2 init_stores_schema_space_no m_select [VInt 1] ∅
            (stub_world (VBool false)) _).
  discriminate.
Defined.

(** C7, as stated, fails for [call]: on a Space for space 7,
    [space.call("box.info")] sends [connection.call("box.info")] and
    nothing else; the stored number is not among the values of the
    request. *)
Lemma call_request_lacks_stored_space_no :
  ~ (forall m args kwargs (w : world stub_conn) c r,
       (c, r) ∈ requests (emitted (invoke m args kwargs) w) ->
       space_no (self w) ∈ request_values r).
Proof.
  intros H.
  specialize (H m_call [VStr "box.info"] ∅ (stub_world (VBool false))
                0%N (Call (VStr "box.info") [] ∅)).
  assert (Hin : VInt 7 ∈ [VStr "box.info"]).
  { apply H. vm_compute. apply list_elem_of_here. }
  apply list_elem_of_singleton in Hin. discriminate.
Qed.

(** The one call that sends [None] as the flag: [delete(1, None)] on a
    connection whose default is [None]. *)
Lemma explicit_None_is_omission_witness :
  flag_value (positional VNone) = VNone /\
  return_tuple (conns (stub_world VNone) 0%N) = VNone.
Proof.
  refine (proj2 (proj2 (proj2 (explicit_None_is_omission
                                 (call_delete (VInt 1))
                                 (stub_world VNone))))
            (positional VNone) 0%N (Delete (VInt 7) (VInt 1) VNone) _ eq_refl).
  vm_compute. apply list_elem_of_here.
Defined.

(** C10, as stated, fails when the default of the connection is [None]:
    [space.delete(1, return_tuple=None)] then sends
    [connection.delete(7, 1, None)]. *)
Lemma None_default_is_forwarded :
  ~ (forall fc f (w : world stub_conn) c r,
       (c, r) ∈ requests (emitted (call_with fc f) w) ->
       request_return_tuple r <> Some VNone).
Proof.
  intros H.
  apply (H (call_delete (VInt 1)) (keyword VNone) (stub_world VNone)
           0%N (Delete (VInt 7) (VInt 1) VNone)).
  - vm_compute. apply list_elem_of_here.
  - reflexivity.
Qed.
